(** * google.auth.api_key: API key credentials

    A shallow embedding of [google/auth/api_key.py] and the properties of
    its [Credentials] class and of [get_api_key_credentials].

    Python objects are modelled as follows.
    - The values the module handles ([None] and [str]) are the type
      [value]; truthiness and the short-circuit [or] are written out.
    - A header mapping is a [gmap string value]; [headers[k] = v] is the
      map insertion [<[k:=v]>].
    - A method runs on a [World]: the receiver [self], the transport
      request object and the header mapping it is handed.  Methods are
      state transformers that may raise, in the monad [M]. *)

From stdpp Require Import base option strings gmap.

Set Default Proof Using "Type".

(** ** Python values, truthiness and exceptions *)

Inductive value : Type :=
| PyNone
| PyStr (s : string).

#[global] Instance value_eq_dec : EqDecision value.
Proof. solve_decision. Defined.

(** [bool(v)]: [None] and the empty string are falsy. *)
Definition truthy (v : value) : bool :=
  match v with
  | PyNone => false
  | PyStr EmptyString => false
  | PyStr (String _ _) => true
  end.

(** [a or b]: [a] when it is truthy, [b] otherwise. *)
Definition py_or (a b : value) : value :=
  if truthy a then a else b.

Inductive exn : Type :=
| ValueError (msg : string).

Inductive result (A : Type) : Type :=
| Ok (a : A)
| Raise (e : exn).

Arguments Ok {A} a.
Arguments Raise {A} e.

(** ** The environment *)

Module environment_vars.
(** Modelled from the spec: the constant [environment_vars.API_KEY],
    whose module is not part of the sources at hand; the specification
    names the variable [GOOGLE_API_KEY]. *)
Definition API_KEY : string := "GOOGLE_API_KEY".
End environment_vars.

Module os.
(** [os.environ.get(key)]: the value of the variable, [None] when unset. *)
Definition environ_get (environ : gmap string string) (key : string) : value :=
  match environ !! key with
  | Some s => PyStr s
  | None => PyNone
  end.
End os.

(** ** The credentials class *)

Section api_key.
(** The state that [credentials.Credentials.__init__] sets up lives in
    the base class, outside this module; it is kept abstract.  The
    transport request object is opaque as well. *)
Context {Base Request : Type}.
Variable super_init : Base.

Record Credentials : Type := mkCredentials {
  base : Base;
  token : value
}.

Record World : Type := mkWorld {
  w_self : Credentials;
  w_request : Request;
  w_headers : gmap string value
}.

Definition M (A : Type) : Type := World -> result (A * World).

Definition ret {A} (a : A) : M A := fun w => Ok (a, w).

Definition bind {A B} (m : M A) (k : A -> M B) : M B :=
  fun w =>
    match m w with
    | Ok (a, w') => k a w'
    | Raise e => Raise e
    end.

Definition get_self : M Credentials := fun w => Ok (w_self w, w).

(** [headers[key] = v] on the header mapping of the world. *)
Definition headers_setitem (key : string) (v : value) : M unit :=
  fun w => Ok (tt, mkWorld (w_self w) (w_request w) (<[key := v]> (w_headers w))).

(** [Credentials.__init__(self, token)]. *)
Definition __init__ (token : value) : result Credentials :=
  if negb (truthy token) then
    Raise (ValueError "Token must be a non-empty API key string")
  else
    Ok (mkCredentials super_init token).

(** The property [Credentials.expired]. *)
Definition expired : M bool := ret false.

(** The property [Credentials.valid]. *)
Definition valid : M bool := ret true.

(** [Credentials.refresh(self, request)]. *)
Definition refresh : M unit := ret tt.

(** [Credentials.apply(self, headers, token=None)]. *)
Definition apply (token' : value) : M unit :=
  bind get_self (fun self =>
  headers_setitem "x-goog-api-key" (py_or token' (token self))).

(** [Credentials.before_request(self, request, method, url, headers)]. *)
Definition before_request (method url : string) : M unit :=
  apply PyNone.

(** The local [api_key_to_use] of [get_api_key_credentials]:
    [api_key_string or os.environ.get(environment_vars.API_KEY)]. *)
Definition api_key_to_use (environ : gmap string string) (api_key_string : value) : value :=
  py_or api_key_string (os.environ_get environ environment_vars.API_KEY).

(** [get_api_key_credentials(api_key_string=None)], given the contents of
    [os.environ]; Python's [None] result is [Ok None]. *)
Definition get_api_key_credentials (environ : gmap string string)
    (api_key_string : value) : result (option Credentials) :=
  let k := api_key_to_use environ api_key_string in
  if truthy k then
    match __init__ k with
    | Ok c => Ok (Some c)
    | Raise e => Raise e
    end
  else Ok None.

(** The sequence the specification describes for [before_request]:
    [refresh(request)], then [apply(headers)] with no override. *)
Definition refresh_then_apply : M unit :=
  bind refresh (fun _ => apply PyNone).

(** ** Calls made by a client

    A client holding a credential reads its properties and calls its
    methods, each time with the request object and the header mapping of
    its choice. *)

Inductive call : Type :=
| GetExpired
| GetValid
| CallRefresh (request : Request)
| CallApply (headers : gmap string value) (token' : value)
| CallBeforeRequest (request : Request) (method url : string)
    (headers : gmap string value).

Definition pass_request (request : Request) : M unit :=
  fun w => Ok (tt, mkWorld (w_self w) request (w_headers w)).

Definition pass_headers (headers : gmap string value) : M unit :=
  fun w => Ok (tt, mkWorld (w_self w) (w_request w) headers).

Definition run_call (c : call) : M unit :=
  match c with
  | GetExpired => bind expired (fun _ => ret tt)
  | GetValid => bind valid (fun _ => ret tt)
  | CallRefresh request => bind (pass_request request) (fun _ => refresh)
  | CallApply headers token' =>
      bind (pass_headers headers) (fun _ => apply token')
  | CallBeforeRequest request method url headers =>
      bind (pass_request request) (fun _ =>
      bind (pass_headers headers) (fun _ =>
      before_request method url))
  end.

Fixpoint run_calls (cs : list call) : M unit :=
  match cs with
  | [] => ret tt
  | c :: cs' => bind (run_call c) (fun _ => run_calls cs')
  end.
End api_key.

Arguments Credentials : clear implicits.
Arguments World : clear implicits.
Arguments M : clear implicits.
Arguments call : clear implicits.

(** ** Sample objects

    A base class without state and strings for request objects: a
    credential holding the key ["ABC"], a header mapping with two
    entries, and an environment that defines [GOOGLE_API_KEY]. *)

Definition sample_credentials : Credentials unit :=
  mkCredentials tt (PyStr "ABC").

Definition sample_headers : gmap string value :=
  <["x-goog-api-key" := PyStr "OLD"]> (<["other" := PyStr "X"]> ∅).

Definition sample_world : World unit string :=
  mkWorld sample_credentials "request" sample_headers.

Definition sample_environ : gmap string string :=
  <["GOOGLE_API_KEY" := "envkey"]> (<["HOME" := "/root"]> ∅).

Definition sample_calls : list (call string) :=
  [ GetValid;
    CallRefresh "request";
    CallApply sample_headers (PyStr "NEW");
    GetExpired;
    CallBeforeRequest "request" "GET" "https://example.com/" ∅;
    CallApply ∅ PyNone ].

(** * Properties *)

Section properties.
Context {Base Request : Type}.
Variable super_init : Base.

Implicit Types (c : Credentials Base) (w : World Base Request).
Implicit Types (h : gmap string value) (t o v : value) (r : Request).

(** ** Truthiness *)

Lemma truthy_spec v :
  truthy v = false <-> v = PyNone \/ v = PyStr "".
Proof.
  destruct v as [|[|a s]]; simpl; split; auto; try discriminate.
  intros [H|H]; discriminate.
Qed.

Lemma truthy_nonempty v :
  truthy v = true <-> exists s, v = PyStr s /\ s <> "".
Proof.
  destruct v as [|[|a s]]; simpl; split; try discriminate.
  - intros (s & Hs & _). discriminate.
  - intros (s & [= <-] & Hne). congruence.
  - intros _. eexists. split; [reflexivity | discriminate].
  - reflexivity.
Qed.

Lemma py_or_truthy a b : truthy a = true -> py_or a b = a.
Proof. unfold py_or. intros ->. reflexivity. Qed.

Lemma py_or_falsy a b : truthy a = false -> py_or a b = b.
Proof. unfold py_or. intros ->. reflexivity. Qed.

(** ** The constructor *)

Lemma init_ok t c :
  __init__ super_init t = Ok c ->
  truthy t = true /\ c = mkCredentials super_init t.
Proof.
  unfold __init__. destruct (truthy t); simpl; [|discriminate].
  intros [= <-]. auto.
Qed.

Lemma init_truthy t :
  truthy t = true -> __init__ super_init t = Ok (mkCredentials super_init t).
Proof. unfold __init__. intros ->. reflexivity. Qed.

Lemma init_falsy t :
  truthy t = false ->
  __init__ super_init t =
    Raise (ValueError "Token must be a non-empty API key string").
Proof. unfold __init__. intros ->. reflexivity. Qed.

(** ** Methods as state transformers *)

Lemma apply_eq o w :
  apply o w =
    Ok (tt, mkWorld (w_self w) (w_request w)
              (<["x-goog-api-key" := py_or o (token (w_self w))]> (w_headers w))).
Proof. reflexivity. Qed.

Lemma run_call_self (cl : call Request) w :
  exists w', run_call cl w = Ok (tt, w') /\ w_self w' = w_self w.
Proof. destruct cl; eexists; split; reflexivity. Qed.

Lemma run_calls_self (cs : list (call Request)) w :
  exists w', run_calls cs w = Ok (tt, w') /\ w_self w' = w_self w.
Proof.
  revert w. induction cs as [|cl cs IH]; intros w; simpl.
  - eexists. split; reflexivity.
  - unfold bind at 1.
    destruct (run_call_self cl w) as (w1 & -> & H1).
    destruct (IH w1) as (w2 & -> & H2).
    eexists. split; [reflexivity | congruence].
Qed.

(** ** The claims *)

(** C1. For a credential constructed with token [t], [apply] with header
    mapping [h] and optional override [o] succeeds and leaves [h] with
    the entry ["x-goog-api-key"] set to [o] when [o] is a non-empty
    string and to [t] otherwise (absent or empty override); a previous
    value under that key is replaced, every other key keeps its value,
    and the key set grows by that key at most. *)
Theorem apply_writes_api_key_header t c r h o :
  __init__ super_init t = Ok c ->
  exists w' v,
    apply o (mkWorld c r h) = Ok (tt, w') /\
    v = (if bool_decide (o = PyNone \/ o = PyStr "") then t else o) /\
    w_headers w' = <["x-goog-api-key" := v]> h /\
    w_headers w' !! "x-goog-api-key" = Some v /\
    (forall k, k <> "x-goog-api-key" -> w_headers w' !! k = h !! k) /\
    dom (w_headers w') = {["x-goog-api-key"]} ∪ dom h.
Proof.
  intros [_ ->]%init_ok.
  eexists; eexists. split; [apply apply_eq|]. simpl.
  assert (Hv : py_or o t =
    if bool_decide (o = PyNone \/ o = PyStr "") then t else o).
  { case_bool_decide as Ho.
    - apply py_or_falsy, truthy_spec, Ho.
    - apply py_or_truthy. destruct (truthy o) eqn:E; [reflexivity|].
      apply truthy_spec in E. contradiction. }
  rewrite <- Hv. repeat split.
  - apply lookup_insert_eq.
  - intros k Hk. apply lookup_insert_ne. congruence.
  - apply dom_insert_L.
Qed.

(** C2. Construction raises [ValueError] exactly when the token is
    [None] or the empty string; for every non-empty string it succeeds
    and the credential stores that string as its token. *)
Theorem init_raises_iff_empty_or_absent t :
  ((exists msg, __init__ super_init t = Raise (ValueError msg)) <->
   (t = PyNone \/ t = PyStr "")) /\
  (forall s, s <> "" ->
     exists c, __init__ super_init (PyStr s) = Ok c /\ token c = PyStr s).
Proof.
  split; [split|].
  - intros [msg H]. apply truthy_spec.
    destruct (truthy t) eqn:E; [|reflexivity].
    rewrite (init_truthy t E) in H. discriminate.
  - intros H%truthy_spec. eexists. apply init_falsy, H.
  - intros s Hs. eexists. split.
    + apply init_truthy, truthy_nonempty. eauto.
    + reflexivity.
Qed.

(** C3. [get_api_key_credentials] resolves the key in order: a non-empty
    explicit key [e] gives a credential with token [e] whatever the
    environment holds; with [e] absent or empty, a non-empty
    [GOOGLE_API_KEY] gives a credential with that value as token; with
    both absent or empty the result is [None], returned and not raised. *)
Theorem get_api_key_credentials_resolution (environ : gmap string string) e :
  (forall s, e = PyStr s -> s <> "" ->
     exists c, get_api_key_credentials super_init environ e = Ok (Some c) /\
               token c = e) /\
  (e = PyNone \/ e = PyStr "" ->
     forall s, environ !! "GOOGLE_API_KEY" = Some s -> s <> "" ->
     exists c, get_api_key_credentials super_init environ e = Ok (Some c) /\
               token c = PyStr s) /\
  (e = PyNone \/ e = PyStr "" ->
     environ !! "GOOGLE_API_KEY" = None \/ environ !! "GOOGLE_API_KEY" = Some "" ->
     get_api_key_credentials super_init environ e = Ok None).
Proof.
  unfold get_api_key_credentials, api_key_to_use, os.environ_get,
    environment_vars.API_KEY.
  split; [|split].
  - intros s -> Hs.
    assert (Ht : truthy (PyStr s) = true) by (apply truthy_nonempty; eauto).
    rewrite (py_or_truthy _ _ Ht), Ht, (init_truthy _ Ht).
    eexists. split; reflexivity.
  - intros He%truthy_spec s -> Hs.
    assert (Ht : truthy (PyStr s) = true) by (apply truthy_nonempty; eauto).
    rewrite (py_or_falsy _ _ He), Ht, (init_truthy _ Ht).
    eexists. split; reflexivity.
  - intros He%truthy_spec Henv. rewrite (py_or_falsy _ _ He).
    destruct Henv as [-> | ->]; reflexivity.
Qed.

(** C4. For a constructed credential, [expired] reads [False] and [valid]
    reads [True], at once and after any sequence of property reads and of
    calls to [refresh], [apply] and [before_request] (the sequence runs to
    completion); as this holds after every prefix of a sequence, it holds
    at each read. *)
Theorem expired_false_valid_true t c r h (cs : list (call Request)) :
  __init__ super_init t = Ok c ->
  expired (mkWorld c r h) = Ok (false, mkWorld c r h) /\
  valid (mkWorld c r h) = Ok (true, mkWorld c r h) /\
  exists w',
    run_calls cs (mkWorld c r h) = Ok (tt, w') /\
    expired w' = Ok (false, w') /\
    valid w' = Ok (true, w').
Proof.
  intros _. split; [reflexivity|]. split; [reflexivity|].
  destruct (run_calls_self cs (mkWorld c r h)) as (w' & Hrun & _).
  exists w'. split; [exact Hrun|]. split; reflexivity.
Qed.

(** C5. [refresh] returns without raising and leaves the world as it
    was: the credential's token and the values read from [expired] and
    [valid] are the same after the call as before it. *)
Theorem refresh_is_noop t c r h :
  __init__ super_init t = Ok c ->
  let w := mkWorld c r h in
  exists w',
    refresh w = Ok (tt, w') /\
    w' = w /\
    token (w_self w') = token (w_self w) /\
    (exists b, expired w = Ok (b, w) /\ expired w' = Ok (b, w')) /\
    (exists b, valid w = Ok (b, w) /\ valid w' = Ok (b, w')).
Proof.
  intros _ w. exists w. repeat split; eexists; split; reflexivity.
Qed.

(** C6. [before_request] ends in the same world, and so the same header
    mapping, as [refresh] followed by [apply] without an override. *)
Theorem before_request_refines_refresh_then_apply c r h (method url : string) :
  before_request method url (mkWorld c r h) =
    refresh_then_apply (mkWorld c r h) /\
  exists w',
    before_request method url (mkWorld c r h) = Ok (tt, w') /\
    refresh_then_apply (mkWorld c r h) = Ok (tt, w') /\
    w_headers w' = <["x-goog-api-key" := token c]> h.
Proof.
  split; [reflexivity|]. eexists. split; [reflexivity|].
  split; reflexivity.
Qed.

(** C7. [get_api_key_credentials] never raises: it returns a value for
    every explicit key and environment.  The key handed to the
    constructor, when the constructor is reached, is a non-empty string,
    on which the constructor succeeds; on any key the constructor would
    reject, the helper returns [None] without calling it. *)
Theorem get_api_key_credentials_never_raises (environ : gmap string string) e :
  (forall x, get_api_key_credentials super_init environ e <> Raise x) /\
  (exists res, get_api_key_credentials super_init environ e = Ok res) /\
  (truthy (api_key_to_use environ e) = true ->
     exists s c, api_key_to_use environ e = PyStr s /\ s <> "" /\
       __init__ super_init (api_key_to_use environ e) = Ok c /\
       get_api_key_credentials super_init environ e = Ok (Some c)) /\
  ((exists x, __init__ super_init (api_key_to_use environ e) = Raise x) ->
     truthy (api_key_to_use environ e) = false /\
     get_api_key_credentials super_init environ e = Ok None).
Proof.
  unfold get_api_key_credentials.
  destruct (truthy (api_key_to_use environ e)) eqn:E.
  - rewrite (init_truthy _ E). repeat split.
    + discriminate.
    + eauto.
    + intros _. apply truthy_nonempty in E as (s & Hs & Hne).
      exists s. eexists. rewrite <- Hs. repeat split; assumption.
    + destruct H as [x H]. discriminate.
    + destruct H as [x H]. discriminate.
  - repeat split.
    + discriminate.
    + eauto.
    + discriminate.
Qed.

(** C8. After a successful construction the stored token is a non-empty
    string, and it stays what it is: any sequence of property reads and
    method calls leaves the credential as constructed, and [apply] with
    an override changes the header mapping only, not the stored token. *)
Theorem token_invariant t c :
  __init__ super_init t = Ok c ->
  (exists s, token c = PyStr s /\ s <> "") /\
  token c = t /\
  (forall r h (cs : list (call Request)),
     exists w', run_calls cs (mkWorld c r h) = Ok (tt, w') /\
                w_self w' = c /\ token (w_self w') = t) /\
  (forall r h o,
     exists w', apply o (mkWorld c r h) = Ok (tt, w') /\
                w_self w' = c /\ token (w_self w') = t).
Proof.
  intros [Ht ->]%init_ok. simpl. split; [|split; [|split]].
  - apply truthy_nonempty in Ht as (s & -> & Hs). eauto.
  - reflexivity.
  - intros r h cs.
    destruct (run_calls_self cs (mkWorld (mkCredentials super_init t) r h))
      as (w' & Hrun & Hself).
    exists w'. simpl in Hself. rewrite Hself. auto.
  - intros r h o. eexists. split; [apply apply_eq|]. split; reflexivity.
Qed.

(** C9. [apply] is idempotent: calling it twice in a row with the same
    override on the same header mapping ends in the same world, and so
    the same header mapping, as calling it once. *)
Theorem apply_idempotent o w :
  bind (apply o) (fun _ => apply o) w = apply o w /\
  exists w1 w2,
    apply o w = Ok (tt, w1) /\
    apply o w1 = Ok (tt, w2) /\
    w_headers w2 = w_headers w1.
Proof.
  assert (H : bind (apply o) (fun _ => apply o) w = apply o w).
  { unfold bind at 1. rewrite !apply_eq. simpl.
    rewrite insert_insert_eq. reflexivity. }
  split; [exact H|].
  eexists; eexists. split; [apply apply_eq|]. split; [apply apply_eq|].
  simpl. apply insert_insert_eq.
Qed.

(** C10. The headers [before_request] leaves depend on the stored token
    and on the header mapping it is given, and on nothing else: two calls
    on credentials with the same token and on equal header mappings end
    with equal header mappings, whatever the request objects, methods and
    urls; each request object is left as it was. *)
Theorem before_request_depends_on_token_and_headers
    c1 c2 r1 r2 (method1 method2 url1 url2 : string) h :
  token c1 = token c2 ->
  exists w1 w2,
    before_request method1 url1 (mkWorld c1 r1 h) = Ok (tt, w1) /\
    before_request method2 url2 (mkWorld c2 r2 h) = Ok (tt, w2) /\
    w_headers w1 = w_headers w2 /\
    w_request w1 = r1 /\ w_request w2 = r2 /\
    w_self w1 = c1 /\ w_self w2 = c2.
Proof.
  intros Ht. unfold before_request. eexists; eexists.
  split; [apply apply_eq|]. split; [apply apply_eq|]. simpl.
  rewrite Ht. repeat split.
Qed.

End properties.

(** * Instances

    The specification's test cases, and the theorems above at the sample
    objects. *)

Example init_none_raises :
  __init__ tt PyNone =
    Raise (ValueError "Token must be a non-empty API key string").
Proof. reflexivity. Qed.

Example init_empty_raises :
  __init__ tt (PyStr "") =
    Raise (ValueError "Token must be a non-empty API key string").
Proof. reflexivity. Qed.

Example init_k1 : __init__ tt (PyStr "k1") = Ok (mkCredentials tt (PyStr "k1")).
Proof. reflexivity. Qed.

Example apply_empty_headers_no_override :
  apply PyNone (mkWorld sample_credentials "request"%string ∅) =
    Ok (tt, mkWorld sample_credentials "request"%string
              (<["x-goog-api-key" := PyStr "ABC"]> ∅)).
Proof. reflexivity. Qed.

Example apply_override_keeps_other_keys :
  apply (PyStr "NEW") sample_world =
    Ok (tt, mkWorld sample_credentials "request"%string
              (<["x-goog-api-key" := PyStr "NEW"]> (<["other" := PyStr "X"]> ∅))).
Proof. vm_compute. reflexivity. Qed.

Example apply_empty_override_uses_token :
  apply (PyStr "") sample_world =
    Ok (tt, mkWorld sample_credentials "request"%string
              (<["x-goog-api-key" := PyStr "ABC"]> (<["other" := PyStr "X"]> ∅))).
Proof. vm_compute. reflexivity. Qed.

Example discovery_explicit :
  get_api_key_credentials tt sample_environ (PyStr "explicit") =
    Ok (Some (mkCredentials tt (PyStr "explicit"))).
Proof. reflexivity. Qed.

Example discovery_environment :
  get_api_key_credentials tt sample_environ PyNone =
    Ok (Some (mkCredentials tt (PyStr "envkey"))).
Proof. reflexivity. Qed.

Example discovery_nothing :
  get_api_key_credentials tt (∅ : gmap string string) PyNone = Ok None.
Proof. reflexivity. Qed.

Example discovery_empty_variable :
  get_api_key_credentials tt (<["GOOGLE_API_KEY" := ""]> ∅) (PyStr "") = Ok None.
Proof. reflexivity. Qed.

Lemma apply_writes_api_key_header_witness :
  __init__ tt (PyStr "ABC") = Ok sample_credentials /\
  exists (w' : World unit string) v,
    apply (PyStr "NEW") sample_world = Ok (tt, w') /\
    v = (if bool_decide (PyStr "NEW" = PyNone \/ PyStr "NEW" = PyStr "")
         then PyStr "ABC" else PyStr "NEW") /\
    w_headers w' = <["x-goog-api-key" := v]> sample_headers /\
    w_headers w' !! "x-goog-api-key" = Some v /\
    (forall k, k <> "x-goog-api-key" ->
       w_headers w' !! k = sample_headers !! k) /\
    dom (w_headers w') = {["x-goog-api-key"]} ∪ dom sample_headers.
Proof.
  split; [reflexivity|].
  apply (apply_writes_api_key_header tt (PyStr "ABC")). reflexivity.
Defined.

Lemma init_raises_iff_empty_or_absent_witness :
  "k1"%string <> ""%string /\
  exists c : Credentials unit,
    __init__ tt (PyStr "k1") = Ok c /\ token c = PyStr "k1".
Proof.
  assert (H : "k1"%string <> ""%string) by discriminate.
  split; [exact H|].
  exact (proj2 (init_raises_iff_empty_or_absent tt PyNone) "k1"%string H).
Defined.

Lemma get_api_key_credentials_resolution_witness :
  (PyNone = PyNone \/ PyNone = PyStr "") /\
  sample_environ !! "GOOGLE_API_KEY" = Some "envkey"%string /\
  "envkey"%string <> ""%string /\
  exists c : Credentials unit,
    get_api_key_credentials tt sample_environ PyNone = Ok (Some c) /\
    token c = PyStr "envkey".
Proof.
  assert (He : PyNone = PyNone \/ PyNone = PyStr "") by (left; reflexivity).
  assert (Hs : "envkey"%string <> ""%string) by discriminate.
  assert (Hv : sample_environ !! "GOOGLE_API_KEY" = Some "envkey"%string)
    by reflexivity.
  repeat (split; [assumption|]).
  exact (proj1 (proj2 (get_api_key_credentials_resolution tt sample_environ PyNone))
           He "envkey"%string Hv Hs).
Defined.

Lemma expired_false_valid_true_witness :
  __init__ tt (PyStr "ABC") = Ok sample_credentials /\
  exists w' : World unit string,
    run_calls sample_calls sample_world = Ok (tt, w') /\
    expired w' = Ok (false, w') /\
    valid w' = Ok (true, w').
Proof.
  split; [reflexivity|].
  apply (expired_false_valid_true tt (PyStr "ABC") sample_credentials
           "request"%string sample_headers sample_calls).
  reflexivity.
Defined.

Lemma refresh_is_noop_witness :
  __init__ tt (PyStr "ABC") = Ok sample_credentials /\
  exists w' : World unit string,
    refresh sample_world = Ok (tt, w') /\ w' = sample_world.
Proof.
  split; [reflexivity|].
  destruct (refresh_is_noop tt (PyStr "ABC") sample_credentials
              "request"%string sample_headers eq_refl) as (w' & H1 & H2 & _).
  exists w'. split; assumption.
Defined.

Lemma get_api_key_credentials_never_raises_witness :
  truthy (api_key_to_use sample_environ (PyStr "")) = true /\
  exists s (c : Credentials unit),
    api_key_to_use sample_environ (PyStr "") = PyStr s /\ s <> ""%string /\
    __init__ tt (api_key_to_use sample_environ (PyStr "")) = Ok c /\
    get_api_key_credentials tt sample_environ (PyStr "") = Ok (Some c).
Proof.
  split; [reflexivity|].
  apply (get_api_key_credentials_never_raises tt sample_environ (PyStr "")).
  reflexivity.
Defined.

Lemma token_invariant_witness :
  __init__ tt (PyStr "ABC") = Ok sample_credentials /\
  (exists s, token sample_credentials = PyStr s /\ s <> ""%string) /\
  exists w' : World unit string,
    run_calls sample_calls sample_world = Ok (tt, w') /\
    w_self w' = sample_credentials /\ token (w_self w') = PyStr "ABC".
Proof.
  split; [reflexivity|].
  destruct (token_invariant (Request := string) tt (PyStr "ABC")
              sample_credentials eq_refl)
    as (Hne & _ & Hcalls & _).
  split; [exact Hne|].
  exact (Hcalls "request"%string sample_headers sample_calls).
Defined.

Lemma before_request_depends_on_token_and_headers_witness :
  token sample_credentials = token (mkCredentials tt (PyStr "ABC")) /\
  exists w1 w2 : World unit string,
    before_request "GET" "https://example.com/a" sample_world = Ok (tt, w1) /\
    before_request "POST" "https://example.com/b"
      (mkWorld (mkCredentials tt (PyStr "ABC")) "other request"%string sample_headers)
      = Ok (tt, w2) /\
    w_headers w1 = w_headers w2.
Proof.
  split; [reflexivity|].
  destruct (before_request_depends_on_token_and_headers
              sample_credentials (mkCredentials tt (PyStr "ABC"))
              "request"%string "other request"%string
              "GET"%string "POST"%string
              "https://example.com/a"%string "https://example.com/b"%string
              sample_headers eq_refl)
    as (w1 & w2 & H1 & H2 & H3 & _).
  exists w1, w2. repeat split; assumption.
Defined.

(** * Further properties of the module *)

Section composition.
Context {Base Request : Type}.
Variable super_init : Base.

Implicit Types (c : Credentials Base) (w : World Base Request).
Implicit Types (h : gmap string value) (t o v : value) (r : Request).

(** X1. The last call decides the header: [apply] with one override
    followed by [apply] with another ends as the second call alone does.
    In particular an override does not outlive its call: [apply] with an
    override followed by [before_request] ends as [before_request] alone. *)
Theorem apply_last_call_wins o1 o2 (method url : string) w :
  bind (apply o1) (fun _ => apply o2) w = apply o2 w /\
  bind (apply o1) (fun _ => before_request method url) w =
    before_request method url w.
Proof.
  unfold before_request, bind. rewrite !apply_eq. simpl.
  rewrite !insert_insert_eq. split; reflexivity.
Qed.

(** X2. [apply] commutes with a write to any other header: setting a
    header other than ["x-goog-api-key"] before the call or after it
    leaves the same mapping. *)
Theorem apply_commutes_with_other_header (k : string) v o w :
  k <> "x-goog-api-key" ->
  bind (headers_setitem k v) (fun _ => apply o) w =
  bind (apply o) (fun _ => headers_setitem k v) w.
Proof.
  intros Hk. unfold bind, headers_setitem. rewrite !apply_eq. simpl.
  rewrite insert_insert_ne by congruence. reflexivity.
Qed.

(** X3. A constructed credential never sends an empty key: whatever the
    override ([None], empty or not), the value [apply] leaves under
    ["x-goog-api-key"] is a non-empty string. *)
Theorem apply_header_value_nonempty t c r h o :
  __init__ super_init t = Ok c ->
  exists w' s,
    apply o (mkWorld c r h) = Ok (tt, w') /\
    w_headers w' !! "x-goog-api-key" = Some (PyStr s) /\
    s <> "".
Proof.
  intros [Ht ->]%init_ok.
  assert (Hv : truthy (py_or o t) = true).
  { unfold py_or. destruct (truthy o) eqn:E; assumption. }
  apply truthy_nonempty in Hv as (s & Hs & Hne).
  eexists. exists s. split; [apply apply_eq|]. simpl.
  rewrite Hs. split; [apply lookup_insert_eq | exact Hne].
Qed.

(** X4. [apply] adds an entry only when the header was missing: the
    mapping grows by one entry if ["x-goog-api-key"] was absent and keeps
    its size if it was present. *)
Theorem apply_headers_size o w :
  exists w',
    apply o w = Ok (tt, w') /\
    (w_headers w !! "x-goog-api-key" = None ->
       size (w_headers w') = S (size (w_headers w))) /\
    (is_Some (w_headers w !! "x-goog-api-key") ->
       size (w_headers w') = size (w_headers w)).
Proof.
  eexists. split; [apply apply_eq|]. simpl. split.
  - intros H. apply map_size_insert_None, H.
  - intros H. apply map_size_insert_Some, H.
Qed.

(** X5. [before_request] changes nothing on a request that already
    carries the credential's token: the world after the call is the world
    before it. *)
Theorem before_request_fixed_point (method url : string) w :
  w_headers w !! "x-goog-api-key" = Some (token (w_self w)) ->
  before_request method url w = Ok (tt, w).
Proof.
  intros H. unfold before_request. rewrite apply_eq.
  rewrite (py_or_falsy PyNone _ eq_refl), (insert_id _ _ _ H).
  destruct w; reflexivity.
Qed.

(** X6. The header identifies the token: if [before_request] on two
    credentials, with any header mappings, ends with equal mappings, the
    two credentials hold the same token. *)
Theorem before_request_headers_determine_token
    c1 c2 r1 r2 (method1 method2 url1 url2 : string) h1 h2 w1 w2 :
  before_request method1 url1 (mkWorld c1 r1 h1) = Ok (tt, w1) ->
  before_request method2 url2 (mkWorld c2 r2 h2) = Ok (tt, w2) ->
  w_headers w1 = w_headers w2 ->
  token c1 = token c2.
Proof.
  unfold before_request. rewrite !apply_eq. simpl.
  intros [= <-] [= <-]. simpl. intros H.
  assert (H' := f_equal (fun m : gmap string value => m !! "x-goog-api-key") H).
  simpl in H'. rewrite !lookup_insert_eq in H'.
  unfold py_or in H'. simpl in H'. congruence.
Qed.

(** X7. The constructor and the stored token round-trip: constructing
    again from the token of a constructed credential gives the same
    credential, and so does [get_api_key_credentials] with that token as
    explicit key, in every environment. *)
Theorem init_token_round_trip t c (environ : gmap string string) :
  __init__ super_init t = Ok c ->
  __init__ super_init (token c) = Ok c /\
  get_api_key_credentials super_init environ (token c) = Ok (Some c).
Proof.
  intros [Ht ->]%init_ok. simpl.
  unfold get_api_key_credentials, api_key_to_use.
  rewrite (py_or_truthy _ _ Ht), Ht, (init_truthy _ _ Ht).
  split; reflexivity.
Qed.

(** X8. [get_api_key_credentials] returns [None] only when there is no
    key at all: the result is [None] exactly when the explicit key is
    absent or empty and [GOOGLE_API_KEY] is unset or empty. *)
Theorem get_api_key_credentials_none_iff (environ : gmap string string) e :
  get_api_key_credentials super_init environ e = Ok None <->
  (e = PyNone \/ e = PyStr "") /\
  (environ !! "GOOGLE_API_KEY" = None \/ environ !! "GOOGLE_API_KEY" = Some "").
Proof.
  unfold get_api_key_credentials, api_key_to_use, os.environ_get,
    environment_vars.API_KEY, py_or.
  destruct (truthy e) eqn:He.
  - rewrite He, (init_truthy _ _ He). split; [discriminate|].
    intros [H%truthy_spec _]. congruence.
  - apply truthy_spec in He.
    destruct (environ !! "GOOGLE_API_KEY") as [[|a s]|] eqn:Hv; simpl.
    + split; auto.
    + split; [discriminate|]. intros [_ [H|H]]; discriminate.
    + split; auto.
Qed.

(** X9. A discovered credential sends the resolved key: when
    [get_api_key_credentials] returns a credential, its token is a
    non-empty string, the explicit key if that is non-empty and the value
    of [GOOGLE_API_KEY] otherwise, and [before_request] puts that string
    under ["x-goog-api-key"]. *)
Theorem discovered_credential_sends_resolved_key
    (environ : gmap string string) e c r h (method url : string) :
  get_api_key_credentials super_init environ e = Ok (Some c) ->
  exists s w',
    s <> "" /\
    token c = PyStr s /\
    (e = PyStr s \/
     ((e = PyNone \/ e = PyStr "") /\ environ !! "GOOGLE_API_KEY" = Some s)) /\
    before_request method url (mkWorld c r h) = Ok (tt, w') /\
    w_headers w' !! "x-goog-api-key" = Some (PyStr s).
Proof.
  unfold get_api_key_credentials.
  destruct (truthy (api_key_to_use environ e)) eqn:Hk; [|discriminate].
  rewrite (init_truthy _ _ Hk). intros [= <-].
  destruct (proj1 (truthy_nonempty _) Hk) as (s & Hs & Hne).
  exists s. eexists. split; [exact Hne|]. split; [exact Hs|].
  split; [|split; [apply apply_eq|]].
  - revert Hs. unfold api_key_to_use, py_or, os.environ_get,
      environment_vars.API_KEY.
    destruct (truthy e) eqn:He; [auto|].
    apply truthy_spec in He.
    destruct (environ !! "GOOGLE_API_KEY") as [s'|]; [|discriminate].
    intros [= ->]. auto.
  - simpl. rewrite (py_or_falsy PyNone _ eq_refl), Hs.
    apply lookup_insert_eq.
Qed.

(** X10. The environment matters through [GOOGLE_API_KEY] alone: two
    environments that agree on that variable give the same result,
    whatever else they define. *)
Theorem get_api_key_credentials_reads_only_api_key
    (environ1 environ2 : gmap string string) e :
  environ1 !! "GOOGLE_API_KEY" = environ2 !! "GOOGLE_API_KEY" ->
  get_api_key_credentials super_init environ1 e =
  get_api_key_credentials super_init environ2 e.
Proof.
  intros H.
  unfold get_api_key_credentials, api_key_to_use, os.environ_get,
    environment_vars.API_KEY.
  rewrite H. reflexivity.
Qed.

(** X11. An empty [GOOGLE_API_KEY] counts as an unset one: defining the
    variable as the empty string and removing it give the same result. *)
Theorem get_api_key_credentials_empty_variable_as_unset
    (environ : gmap string string) e :
  get_api_key_credentials super_init (<["GOOGLE_API_KEY" := ""]> environ) e =
  get_api_key_credentials super_init (delete "GOOGLE_API_KEY" environ) e.
Proof.
  unfold get_api_key_credentials, api_key_to_use, os.environ_get,
    environment_vars.API_KEY, py_or.
  rewrite lookup_insert_eq, lookup_delete_eq.
  destruct (truthy e); reflexivity.
Qed.

Lemma run_calls_app (cs1 cs2 : list (call Request)) w :
  run_calls (cs1 ++ cs2) w = bind (run_calls cs1) (fun _ => run_calls cs2) w.
Proof.
  revert w. induction cs1 as [|cl cs1 IH]; intros w; simpl.
  - reflexivity.
  - unfold bind in *. destruct (run_call_self cl w) as (w1 & E & _).
    rewrite E. apply IH.
Qed.

(** X12. The credential keeps no memory of earlier calls: after any
    sequence of property reads and calls, with any overrides and header
    mappings, [before_request] on a mapping [h] leaves [h] with the token
    given at construction under ["x-goog-api-key"], the credential as
    constructed and the request object as passed. *)
Theorem before_request_independent_of_history
    t c r0 h0 (cs : list (call Request)) r (method url : string) h :
  __init__ super_init t = Ok c ->
  run_calls (cs ++ [CallBeforeRequest r method url h]) (mkWorld c r0 h0) =
    Ok (tt, mkWorld c r (<["x-goog-api-key" := t]> h)).
Proof.
  intros [_ ->]%init_ok. rewrite run_calls_app. unfold bind at 1.
  destruct (run_calls_self cs (mkWorld (mkCredentials super_init t) r0 h0))
    as (w1 & -> & Hself).
  simpl in Hself. destruct w1 as [c1 r1 h1]. simpl in Hself. subst c1.
  reflexivity.
Qed.

End composition.

(** * Instances of the further properties *)

Lemma apply_commutes_with_other_header_witness :
  "other"%string <> "x-goog-api-key"%string /\
  bind (headers_setitem "other" (PyStr "Y")) (fun _ => apply (PyStr "NEW"))
    sample_world =
  bind (apply (PyStr "NEW")) (fun _ => headers_setitem "other" (PyStr "Y"))
    sample_world.
Proof.
  assert (H : "other"%string <> "x-goog-api-key"%string) by discriminate.
  split; [exact H|].
  exact (apply_commutes_with_other_header "other" (PyStr "Y") (PyStr "NEW")
           sample_world H).
Defined.

Lemma apply_header_value_nonempty_witness :
  __init__ tt (PyStr "ABC") = Ok sample_credentials /\
  exists (w' : World unit string) s,
    apply (PyStr "") sample_world = Ok (tt, w') /\
    w_headers w' !! "x-goog-api-key" = Some (PyStr s) /\
    s <> ""%string.
Proof.
  split; [reflexivity|].
  apply (apply_header_value_nonempty tt (PyStr "ABC")). reflexivity.
Defined.

Lemma apply_headers_size_witness :
  is_Some (w_headers sample_world !! "x-goog-api-key") /\
  exists w' : World unit string,
    apply PyNone sample_world = Ok (tt, w') /\
    size (w_headers w') = size (w_headers sample_world).
Proof.
  assert (H : is_Some (w_headers sample_world !! "x-goog-api-key"))
    by (eexists; reflexivity).
  split; [exact H|].
  destruct (apply_headers_size PyNone sample_world) as (w' & Hw & _ & Hsize).
  exists w'. split; [exact Hw | exact (Hsize H)].
Defined.

Lemma before_request_fixed_point_witness :
  w_headers (mkWorld sample_credentials "request"%string
               (<["x-goog-api-key" := PyStr "ABC"]> ∅))
    !! "x-goog-api-key" = Some (token sample_credentials) /\
  before_request "GET" "https://example.com/"
    (mkWorld sample_credentials "request"%string
       (<["x-goog-api-key" := PyStr "ABC"]> ∅)) =
  Ok (tt, mkWorld sample_credentials "request"%string
            (<["x-goog-api-key" := PyStr "ABC"]> ∅)).
Proof.
  split; [reflexivity|].
  apply (before_request_fixed_point "GET" "https://example.com/"). reflexivity.
Defined.

Lemma before_request_headers_determine_token_witness :
  before_request "GET" "a" sample_world =
    Ok (tt, mkWorld sample_credentials "request"%string
              (<["x-goog-api-key" := PyStr "ABC"]> sample_headers)) /\
  before_request "POST" "b"
    (mkWorld (mkCredentials tt (PyStr "ABC")) "other request"%string
       (<["other" := PyStr "X"]> ∅)) =
    Ok (tt, mkWorld (mkCredentials tt (PyStr "ABC")) "other request"%string
              (<["x-goog-api-key" := PyStr "ABC"]> (<["other" := PyStr "X"]> ∅))) /\
  token sample_credentials = token (mkCredentials tt (PyStr "ABC")).
Proof.
  assert (H1 : before_request "GET" "a" sample_world =
    Ok (tt, mkWorld sample_credentials "request"%string
              (<["x-goog-api-key" := PyStr "ABC"]> sample_headers)))
    by reflexivity.
  assert (H2 : before_request "POST" "b"
    (mkWorld (mkCredentials tt (PyStr "ABC")) "other request"%string
       (<["other" := PyStr "X"]> ∅)) =
    Ok (tt, mkWorld (mkCredentials tt (PyStr "ABC")) "other request"%string
              (<["x-goog-api-key" := PyStr "ABC"]> (<["other" := PyStr "X"]> ∅))))
    by reflexivity.
  split; [exact H1|]. split; [exact H2|].
  apply (before_request_headers_determine_token _ _ _ _ _ _ _ _ _ _ _ _ H1 H2).
  vm_compute. reflexivity.
Defined.

Lemma init_token_round_trip_witness :
  __init__ tt (PyStr "ABC") = Ok sample_credentials /\
  __init__ tt (token sample_credentials) = Ok sample_credentials /\
  get_api_key_credentials tt sample_environ (token sample_credentials) =
    Ok (Some sample_credentials).
Proof.
  split; [reflexivity|].
  apply (init_token_round_trip tt (PyStr "ABC")). reflexivity.
Defined.

Lemma get_api_key_credentials_none_iff_witness :
  ((PyStr "" = PyNone \/ PyStr "" = PyStr "") /\
   ((∅ : gmap string string) !! "GOOGLE_API_KEY" = None \/
    (∅ : gmap string string) !! "GOOGLE_API_KEY" = Some ""%string)) /\
  get_api_key_credentials tt (∅ : gmap string string) (PyStr "") = Ok None.
Proof.
  assert (H : (PyStr "" = PyNone \/ PyStr "" = PyStr "") /\
   ((∅ : gmap string string) !! "GOOGLE_API_KEY" = None \/
    (∅ : gmap string string) !! "GOOGLE_API_KEY" = Some ""%string)).
  { split; [right; reflexivity | left; reflexivity]. }
  split; [exact H|].
  exact (proj2 (get_api_key_credentials_none_iff tt ∅ (PyStr "")) H).
Defined.

Lemma discovered_credential_sends_resolved_key_witness :
  get_api_key_credentials tt sample_environ PyNone =
    Ok (Some (mkCredentials tt (PyStr "envkey"))) /\
  exists s (w' : World unit string),
    s <> ""%string /\
    token (mkCredentials tt (PyStr "envkey")) = PyStr s /\
    (PyNone = PyStr s \/
     ((PyNone = PyNone \/ PyNone = PyStr "") /\
      sample_environ !! "GOOGLE_API_KEY" = Some s)) /\
    before_request "GET" "https://example.com/"
      (mkWorld (mkCredentials tt (PyStr "envkey")) "request"%string ∅) =
      Ok (tt, w') /\
    w_headers w' !! "x-goog-api-key" = Some (PyStr s).
Proof.
  split; [reflexivity|].
  apply (discovered_credential_sends_resolved_key tt sample_environ PyNone).
  reflexivity.
Defined.

Lemma get_api_key_credentials_reads_only_api_key_witness :
  sample_environ !! "GOOGLE_API_KEY" =
    (<["GOOGLE_API_KEY" := "envkey"%string]> ∅ : gmap string string)
      !! "GOOGLE_API_KEY" /\
  get_api_key_credentials tt sample_environ PyNone =
  get_api_key_credentials tt (<["GOOGLE_API_KEY" := "envkey"%string]> ∅) PyNone.
Proof.
  split; [reflexivity|].
  apply (get_api_key_credentials_reads_only_api_key tt). reflexivity.
Defined.

Lemma before_request_independent_of_history_witness :
  __init__ tt (PyStr "ABC") = Ok sample_credentials /\
  run_calls (sample_calls ++ [CallBeforeRequest "r2"%string "GET" "u" sample_headers])
    sample_world =
  Ok (tt, mkWorld sample_credentials "r2"%string
            (<["x-goog-api-key" := PyStr "ABC"]> sample_headers)).
Proof.
  split; [reflexivity|].
  apply (before_request_independent_of_history tt (PyStr "ABC")). reflexivity.
Defined.
